(** * SignGPT Crew Server: the HTTP handlers of [app.py]

    A shallow embedding of the module-level code and of the request
    handlers of [src/app.py], and of the script [src/main.py], with the
    properties of them that the specification states and further ones
    read off the code.

    What the module imports is kept abstract:
    - [str.upper] and [str()] of an [HTTPException] are the two fields
      of the class [Runtime];
    - the crew pipeline ([SginGPTCrew().sgin_gpt_crew().kickoff]) is an
      oracle giving, for the n-th kickoff and its inputs, what the call
      does: it returns a result or it raises;
    - the file system and [json.load] are the value of type
      [dataset_file] that start-up is run on. *)

From stdpp Require Import base option list strings gmap pretty.

Local Open Scope Z_scope.

(** ** Python values the module handles *)

(** Exceptions.  [HTTPException] derives from [Exception]; [PyExc] is an
    instance of any other class deriving from [Exception], [PyBaseExc]
    one of a class deriving from [BaseException] only ([SystemExit],
    [KeyboardInterrupt]).  [text] is what [str(e)] gives.  The
    [__cause__] that [raise ... from] records only shows in tracebacks
    and is left out. *)
Inductive pyexc : Type :=
| HTTPException (status_code : Z) (detail : string)
| PyExc (cls : string) (text : string)
| PyBaseExc (cls : string) (text : string).

(** [isinstance(e, Exception)], the test of an [except Exception] clause. *)
Definition isinstance_Exception (e : pyexc) : bool :=
  match e with
  | HTTPException _ _ => true
  | PyExc _ _ => true
  | PyBaseExc _ _ => false
  end.

(** [isinstance(e, FileNotFoundError)]. *)
Definition isinstance_FileNotFoundError (e : pyexc) : bool :=
  match e with
  | PyExc cls _ => bool_decide (cls = "FileNotFoundError")
  | _ => false
  end.

(** The result of running a piece of Python: a value, or an exception
    on its way up. *)
Inductive outcome (A : Type) : Type :=
| Return (a : A)
| Raise (e : pyexc).
Arguments Return {A} a.
Arguments Raise {A} e.

(** What the module takes from its libraries. *)
Class Runtime : Type := {
  upper : string → string;                    (* str.upper *)
  str_HTTPException : Z → string → string     (* HTTPException.__str__ *)
}.

(** [str(e)]. *)
Definition str `{Runtime} (e : pyexc) : string :=
  match e with
  | HTTPException status_code detail => str_HTTPException status_code detail
  | PyExc _ text => text
  | PyBaseExc _ text => text
  end.

(** Truth value of a string, of a list, and of what [os.getenv] returns
    ([None] when the variable is unset). *)
Definition bool_str (s : string) : bool :=
  match s with
  | EmptyString => false
  | String _ _ => true
  end.

Definition bool_list {A : Type} (l : list A) : bool :=
  match l with
  | [] => false
  | _ :: _ => true
  end.

Definition bool_getenv (v : option string) : bool :=
  match v with
  | None => false
  | Some s => bool_str s
  end.

(** [len]. *)
Definition len {A : Type} (l : list A) : Z := Z.of_nat (length l).

(** ** Dictionaries in insertion order

    A Python [dict] keeps its keys in the order of their first
    insertion; assigning to a key that is present replaces the value
    where it stands. *)
Module PyDict.
Section dict.
Context {V : Type}.

Definition t : Type := list (string * V).

Definition empty : t := [].

(** [d[k] = v] *)
Fixpoint setitem (d : t) (k : string) (v : V) : t :=
  match d with
  | [] => [(k, v)]
  | (k', v') :: d' =>
      if String.eqb k' k then (k', v) :: d'
      else (k', v') :: setitem d' k v
  end.

(** [d[k]]; [None] stands for [KeyError]. *)
Fixpoint getitem (d : t) (k : string) : option V :=
  match d with
  | [] => None
  | (k', v') :: d' => if String.eqb k' k then Some v' else getitem d' k
  end.

(** [iter(d)]: the keys. *)
Definition keys (d : t) : list string := map fst d.

(** The values, in the order of [keys]. *)
Definition values (d : t) : list V := map snd d.

(** The dict [json.load] builds from the members of a JSON object, in
    the order of the text: a repeated name keeps its first place and
    its last value. *)
Definition of_members (ms : list (string * V)) : t :=
  fold_left (λ d kv, setitem d kv.1 kv.2) ms empty.
End dict.
Arguments t V : clear implicits.
End PyDict.

(** ** Start-up: loading the vocabulary (app.py, lines 29-36) *)

(** A value of the JSON document as the loader sees it: a string, or
    something else (of the Python type named), which has no [upper]. *)
Inductive jvalue : Type :=
| JStr (s : string)
| JOther (type_name : string).

(** [isinstance(v, str)] *)
Definition is_JStr (v : jvalue) : bool :=
  match v with
  | JStr _ => true
  | JOther _ => false
  end.

(** What [open] and [json.load] meet at ./data/english_words.json.  The
    document is a JSON object, the format of the data file; other
    failures of [open] and documents of another kind are not in this
    type. *)
Inductive dataset_file : Type :=
| NoSuchFile
| Malformed (text : string)
| Document (members : list (string * jvalue)).

Definition FileNotFoundError : pyexc :=
  PyExc "FileNotFoundError"
        "[Errno 2] No such file or directory: './data/english_words.json'".

(** [with open(...) as f: asl_dataset_raw = json.load(f)] *)
Definition load_raw (file : dataset_file) : outcome (PyDict.t jvalue) :=
  match file with
  | NoSuchFile => Raise FileNotFoundError
  | Malformed text => Raise (PyExc "JSONDecodeError" text)
  | Document members => Return (PyDict.of_members members)
  end.

Section startup.
Context `{Runtime}.

(** [asl_dataset_raw[word].upper()] *)
Definition upper_of (asl_dataset_raw : PyDict.t jvalue) (word : string)
  : outcome string :=
  match PyDict.getitem asl_dataset_raw word with
  | None => Raise (PyExc "KeyError" ("'" +:+ word +:+ "'"))
  | Some (JStr s) => Return (upper s)
  | Some (JOther type_name) =>
      Raise (PyExc "AttributeError"
               ("'" +:+ type_name +:+ "' object has no attribute 'upper'"))
  end.

(** [[asl_dataset_raw[word].upper() for word in words]] *)
Fixpoint comprehension (asl_dataset_raw : PyDict.t jvalue)
    (words : list string) : outcome (list string) :=
  match words with
  | [] => Return []
  | word :: words' =>
      match upper_of asl_dataset_raw word with
      | Raise e => Raise e
      | Return x =>
          match comprehension asl_dataset_raw words' with
          | Raise e => Raise e
          | Return xs => Return (x :: xs)
          end
      end
  end.

(** [x] is the upper-cased string that [asl_dataset_raw] has at [word]. *)
Definition upper_at (asl_dataset_raw : PyDict.t jvalue) (word x : string)
  : Prop :=
  ∃ s, PyDict.getitem asl_dataset_raw word = Some (JStr s) ∧ x = upper s.

(** [x] is the upper-cased form of the string [v]. *)
Definition upper_of_value (v : jvalue) (x : string) : Prop :=
  ∃ s, v = JStr s ∧ x = upper s.

(** The body of the [try]. *)
Definition load_body (file : dataset_file) : outcome (list string) :=
  match load_raw file with
  | Raise e => Raise e
  | Return asl_dataset_raw =>
      comprehension asl_dataset_raw (PyDict.keys asl_dataset_raw)
  end.

(** The [try] with its [except FileNotFoundError] clause: what the
    module binds [asl_dataset] to, or the exception importing the
    module ends with. *)
Definition load_asl_dataset (file : dataset_file) : outcome (list string) :=
  match load_body file with
  | Return asl_dataset => Return asl_dataset
  | Raise exc =>
      if isinstance_FileNotFoundError exc
      then Raise (PyExc "RuntimeError"
                    "ASL dataset file not found at ./data/english_words.json")
      else Raise exc
  end.
End startup.

(** ** The running server *)

(** The [inputs] dict of a kickoff. *)
Record kickoff_inputs : Type := {
  in_words : list string;
  in_ASL_dataset : list string
}.

(** What the crew pipeline does on one kickoff: [result] with the text
    [str(result)], or an exception. *)
Inductive crew_outcome : Type :=
| CrewReturn (text : string)
| CrewRaise (e : pyexc).

(** The state a handler runs in: the process environment, the module
    global [asl_dataset], and the kickoffs made so far, oldest first. *)
Record server : Type := {
  environ : gmap string string;
  asl_dataset : list string;
  kickoffs : list kickoff_inputs
}.

(** Handler code: it reads and extends the state, and returns or raises. *)
Definition handler (A : Type) : Type := server → outcome A * server.

Definition ret {A : Type} (a : A) : handler A := λ st, (Return a, st).

Definition raise {A : Type} (e : pyexc) : handler A := λ st, (Raise e, st).

Definition bind {A B : Type} (m : handler A) (k : A → handler B) : handler B :=
  λ st, match m st with
        | (Return a, st') => k a st'
        | (Raise e, st') => (Raise e, st')
        end.

(** With these, [x ← m; k] and [m;; k] are the sequencing of handlers. *)
#[global] Instance handler_ret : MRet handler := @ret.
#[global] Instance handler_bind : MBind handler := λ A B k m, bind m k.

(** [try: m except Exception as e: h e] *)
Definition try_except_Exception {A : Type} (m : handler A)
    (h : pyexc → handler A) : handler A :=
  λ st, match m st with
        | (Return a, st') => (Return a, st')
        | (Raise e, st') =>
            if isinstance_Exception e then h e st' else (Raise e, st')
        end.

(** [os.getenv(name)] *)
Definition getenv (name : string) : handler (option string) :=
  λ st, (Return (environ st !! name), st).

(** The global [asl_dataset]. *)
Definition read_asl_dataset : handler (list string) :=
  λ st, (Return (asl_dataset st), st).

(** [if c: raise e] *)
Definition raise_if (c : bool) (e : pyexc) : handler unit :=
  if c then raise e else ret tt.

(** [openai_key_configured = bool(os.getenv("OPENAI_API_KEY"))]: a
    variable that is unset or empty counts as not configured. *)
Definition openai_key_configured (st : server) : bool :=
  bool_getenv (environ st !! "OPENAI_API_KEY").

(** The state after one more kickoff. *)
Definition record_kickoff (inputs : kickoff_inputs) (st : server) : server :=
  {| environ := environ st;
     asl_dataset := asl_dataset st;
     kickoffs := kickoffs st ++ [inputs] |}.

(** ** Request and response models (app.py, lines 41-61) *)

Record ProcessTokensRequest : Type := { words : list string }.

Record ProcessTokensResponse : Type := { result : string }.

Record HealthResponse : Type := {
  status : string;
  message : string;
  asl_dataset_size : Z
}.

(** The body of GET /asl-dataset. *)
Record DatasetInfo : Type := {
  total_words : Z;
  sample_words : list string;
  description : string
}.

(** One entry of [validation_results]; [normalized = None] is JSON null. *)
Record TokenResult : Type := {
  valid : bool;
  normalized : option string
}.

Record Summary : Type := {
  total_tokens : Z;
  valid_count : Z;
  invalid_count : Z;
  valid_tokens : list string;
  invalid_tokens : list string
}.

(** The body of POST /validate-tokens. *)
Record Validation : Type := {
  validation_results : gmap string TokenResult;
  summary : Summary
}.

(** The three locals of [validate_tokens] that its loop updates. *)
Record Locals : Type := {
  l_validation_results : gmap string TokenResult;
  l_valid_tokens : list string;
  l_invalid_tokens : list string
}.

(** [l[:n]] for [n >= 0]. *)
Fixpoint slice_to {A : Type} (n : nat) (l : list A) : list A :=
  match n, l with
  | O, _ => []
  | S _, [] => []
  | S n', x :: l' => x :: slice_to n' l'
  end.

(** The inputs of the kickoff that a request makes in a state. *)
Definition inputs_of (request : ProcessTokensRequest) (st : server)
  : kickoff_inputs :=
  {| in_words := words request; in_ASL_dataset := asl_dataset st |}.

Section handlers.
Context `{Runtime}.

(** The crew: what the [n]-th kickoff of the process does on its
    inputs. *)
Variable SginGPTCrew : nat → kickoff_inputs → crew_outcome.

(** [get_crew_instance().sgin_gpt_crew().kickoff(inputs=...)] followed
    by [str(result)].  The crew is taken to leave the list it is handed
    as it is. *)
Definition kickoff (inputs : kickoff_inputs) : handler string :=
  λ st,
    let st' := record_kickoff inputs st in
    match SginGPTCrew (length (kickoffs st)) inputs with
    | CrewReturn text => (Return text, st')
    | CrewRaise e => (Raise e, st')
    end.

(** GET /health (lines 81-91) *)
Definition health_check : handler HealthResponse :=
  key ← getenv "OPENAI_API_KEY";
  let openai_key_configured := bool_getenv key in
  dataset ← read_asl_dataset;
  ret {| status := if openai_key_configured then "healthy" else "warning";
         message := if openai_key_configured then "Service is running"
                    else "Service running but OPENAI_API_KEY not configured";
         asl_dataset_size := len dataset |}.

(** POST /process-tokens: the body of the [try] (lines 104-125) *)
Definition process_tokens_try (request : ProcessTokensRequest)
  : handler ProcessTokensResponse :=
  key ← getenv "OPENAI_API_KEY";
  raise_if (negb (bool_getenv key))
    (HTTPException 500
       "OPENAI_API_KEY not configured. Please set it in your environment or .env file.");;
  raise_if (negb (bool_list (words request)))
    (HTTPException 400 "Words list cannot be empty");;
  dataset ← read_asl_dataset;
  text ← kickoff {| in_words := words request; in_ASL_dataset := dataset |};
  ret {| result := text |}.

(** POST /process-tokens (lines 94-131) *)
Definition process_tokens (request : ProcessTokensRequest)
  : handler ProcessTokensResponse :=
  try_except_Exception (process_tokens_try request)
    (λ e, raise (HTTPException 500 ("Error processing tokens: " +:+ str e))).

(** GET /asl-dataset (lines 134-141) *)
Definition get_asl_dataset : handler DatasetInfo :=
  dataset ← read_asl_dataset;
  ret {| total_words := len dataset;
         sample_words := slice_to 20 dataset;
         description := "Available ASL vocabulary tokens" |}.

(** The entry that a turn of the loop stores for [token]. *)
Definition verdict (dataset : list string) (token : string) : TokenResult :=
  let token_upper := upper token in
  if bool_decide (token_upper ∈ dataset)
  then {| valid := true; normalized := Some token_upper |}
  else {| valid := false; normalized := None |}.

(** One turn of the loop of [validate_tokens] (lines 154-161). *)
Definition validate_step (dataset : list string) (acc : Locals)
    (token : string) : Locals :=
  let token_upper := upper token in
  if bool_decide (token_upper ∈ dataset) then
    {| l_validation_results :=
         <[token := {| valid := true; normalized := Some token_upper |}]>
           (l_validation_results acc);
       l_valid_tokens := l_valid_tokens acc ++ [token_upper];
       l_invalid_tokens := l_invalid_tokens acc |}
  else
    {| l_validation_results :=
         <[token := {| valid := false; normalized := None |}]>
           (l_validation_results acc);
       l_valid_tokens := l_valid_tokens acc;
       l_invalid_tokens := l_invalid_tokens acc ++ [token] |}.

(** The locals before the loop (lines 149-151). *)
Definition validate_init : Locals :=
  {| l_validation_results := ∅;
     l_valid_tokens := [];
     l_invalid_tokens := [] |}.

(** The loop (lines 153-161). *)
Definition validate_loop (dataset : list string) (tokens : list string)
  : Locals :=
  fold_left (validate_step dataset) tokens validate_init.

(** POST /validate-tokens (lines 144-172) *)
Definition validate_tokens (tokens : list string) : handler Validation :=
  dataset ← read_asl_dataset;
  let acc := validate_loop dataset tokens in
  ret {| validation_results := l_validation_results acc;
         summary :=
           {| total_tokens := len tokens;
              valid_count := len (l_valid_tokens acc);
              invalid_count := len (l_invalid_tokens acc);
              valid_tokens := l_valid_tokens acc;
              invalid_tokens := l_invalid_tokens acc |} |}.
End handlers.

(** ** A runtime to evaluate the handlers with

    ASCII letters are upper-cased, other characters kept; [str()] of an
    [HTTPException] is Starlette's "status: detail". *)

Definition ascii_upper (c : Ascii.ascii) : Ascii.ascii :=
  let n := Ascii.N_of_ascii c in
  if ((97 <=? n) && (n <=? 122))%N then Ascii.ascii_of_N (n - 32)%N else c.

Fixpoint string_upper (s : string) : string :=
  match s with
  | EmptyString => EmptyString
  | String c s' => String (ascii_upper c) (string_upper s')
  end.

Definition ascii_runtime : Runtime :=
  {| upper := string_upper;
     str_HTTPException := λ status_code detail,
       pretty status_code +:+ ": " +:+ detail |}.

(** A crew that answers every kickoff with the same text. *)
Definition echo_crew (text : string) : nat → kickoff_inputs → crew_outcome :=
  λ _ _, CrewReturn text.

(** A crew whose every kickoff raises [e]. *)
Definition failing_crew (e : pyexc) : nat → kickoff_inputs → crew_outcome :=
  λ _ _, CrewRaise e.

(** A small vocabulary file and the servers started on it. *)
Definition sample_members : list (string * jvalue) :=
  [("hello", JStr "Hi"); ("you", JStr "you"); ("name", JStr "Name");
   ("hello", JStr "Hello")].

Definition sample_file : dataset_file := Document sample_members.

Definition sample_dataset : list string := ["HELLO"; "YOU"; "NAME"].

Definition server_with_key : server :=
  {| environ := {[ "OPENAI_API_KEY" := "sk-test" ]};
     asl_dataset := sample_dataset;
     kickoffs := [] |}.

Definition server_without_key : server :=
  {| environ := ∅; asl_dataset := sample_dataset; kickoffs := [] |}.


(** ** The command line entry point (main.py)

    The script reads the environment, kicks the crew off once on a
    fixed list of words and prints what comes back.  Standard output is
    the list of the texts printed, one for each call of [print]. *)
Module Main.

(** One element of [result.tasks_output]; a description or an agent
    that is [None] or empty is falsy. *)
Record TaskOutput : Type := {
  description : option string;
  agent : option string;
  raw : string
}.

(** What [kickoff] returns: [text] is [str(result)]. *)
Record CrewOutput : Type := {
  text : string;
  tasks_output : list TaskOutput
}.

(** The arguments of [SginGPTCrew(asl_dataset=...)] and of
    [kickoff(inputs=...)]. *)
Record crew_call : Type := {
  crew_asl_dataset : string;
  inputs_words : list string;
  inputs_ASL_dataset : string
}.

Inductive crew_run : Type :=
| Returns (result : CrewOutput)
| Raises (e : pyexc).

(** A line feed (character 10). *)
Definition nl : string :=
  String (Ascii.Ascii false true false true false false false false)
         EmptyString.

(** [x or y] *)
Definition or_else (x : option string) (y : string) : string :=
  match x with
  | Some s => if bool_str s then s else y
  | None => y
  end.

(** [print(text)], taken not to fail. *)
Definition print (text : string) (out : list string) : list string :=
  out ++ [text].

(** The two texts printed for a task (main.py, lines 25-28). *)
Definition step_header (idx : nat) (task_output : TaskOutput) : string :=
  let step_name := or_else (description task_output) ("Step " +:+ pretty idx) in
  let agent_name := or_else (agent task_output) "Unknown Agent" in
  "[" +:+ pretty idx +:+ "] " +:+ step_name +:+ " — Agent: " +:+ agent_name.

Definition step_output (task_output : TaskOutput) : string :=
  "Output: " +:+ raw task_output +:+ nl.

(** The loop over [enumerate(result.tasks_output, start=idx)]. *)
Fixpoint print_steps (idx : nat) (tasks : list TaskOutput)
    (out : list string) : list string :=
  match tasks with
  | [] => out
  | task_output :: tasks' =>
      print_steps (S idx) tasks'
        (print (step_output task_output)
           (print (step_header idx task_output) out))
  end.

Definition missing_key : pyexc :=
  PyBaseExc "SystemExit"
    "Missing OPENAI_API_KEY. Set it in your environment or a .env file at repo root.".

(** The call that [main] makes. *)
Definition the_call : crew_call :=
  {| crew_asl_dataset := "data/asl_dataset";
     inputs_words := ["YOU"; "DO"; "WHAT"; "AND"; "YOU"; "NAME"; "WHAT"];
     inputs_ASL_dataset := "data/asl_dataset" |}.

(** [main()]: how it ends, and what it has printed. *)
Definition main (environ : gmap string string)
    (SginGPTCrew : crew_call → crew_run) : outcome unit * list string :=
  if negb (bool_getenv (environ !! "OPENAI_API_KEY")) then
    (Raise missing_key, [])
  else
    match SginGPTCrew the_call with
    | Raises e => (Raise e, [])
    | Returns result =>
        (Return tt,
         print_steps 1 (tasks_output result)
           (print (nl +:+ "==== All Step Outputs ====")
              (print ("Crew Result: " +:+ text result) [])))
    end.

(** A run of the crew to evaluate [main] on: three tasks, the second
    without a description, the third without an agent. *)
Definition sample_result : CrewOutput :=
  {| text := "What is your name?";
     tasks_output :=
       [ {| description := Some "Find the signs"; agent := Some "Finder";
            raw := "YOU NAME WHAT" |};
         {| description := Some ""; agent := Some "Writer";
            raw := "you name what" |};
         {| description := Some "Polish"; agent := None;
            raw := "What is your name?" |} ] |}.
End Main.

(** * Properties *)

(** ** Dictionaries *)

Section dict_facts.
Context {V : Type}.
Implicit Types (d : PyDict.t V) (k : string) (v : V).

Lemma keys_setitem d k v :
  PyDict.keys (PyDict.setitem d k v) =
  if bool_decide (k ∈ PyDict.keys d) then PyDict.keys d
  else PyDict.keys d ++ [k].
Proof.
  induction d as [|[k' v'] d IH]; simpl; [done|].
  destruct (String.eqb_spec k' k) as [->|Hne]; simpl.
  - rewrite bool_decide_eq_true_2; [done | left].
  - rewrite IH. case_bool_decide as Hin.
    + rewrite bool_decide_eq_true_2; [done | by right].
    + rewrite bool_decide_eq_false_2; [done|].
      intros [?|?]%elem_of_cons; congruence.
Qed.

Lemma setitem_values (Q : V → Prop) d k v :
  Forall Q (PyDict.values d) → Q v →
  Forall Q (PyDict.values (PyDict.setitem d k v)).
Proof.
  unfold PyDict.values. intros Hd Hv.
  induction d as [|[k' v'] d IH]; simpl.
  - by constructor.
  - apply Forall_cons in Hd as [Hv' Hd].
    destruct (String.eqb k' k); simpl; constructor; auto.
Qed.

Lemma getitem_keys d k :
  k ∈ PyDict.keys d →
  ∃ v, PyDict.getitem d k = Some v ∧ v ∈ PyDict.values d.
Proof.
  unfold PyDict.keys, PyDict.values.
  induction d as [|[k' v'] d IH]; simpl; intros Hin.
  - by apply elem_of_nil in Hin.
  - destruct (String.eqb_spec k' k) as [->|Hne].
    + exists v'. split; [done | left].
    + apply elem_of_cons in Hin as [?|Hin]; [congruence|].
      destruct (IH Hin) as (v & ? & ?). exists v. split; [done | by right].
Qed.

(** The dict of a JSON object, over a starting dict [d]. *)
Lemma fold_setitem_keys (ms : list (string * V)) d :
  NoDup (PyDict.keys d) →
  let d' := fold_left (λ d kv, PyDict.setitem d kv.1 kv.2) ms d in
  NoDup (PyDict.keys d') ∧
  ∀ k, k ∈ PyDict.keys d' ↔ k ∈ PyDict.keys d ∨ k ∈ ms.*1.
Proof.
  revert d. induction ms as [|[k v] ms IH]; simpl; intros d Hd.
  - split; [done|]. intros k. rewrite elem_of_nil. tauto.
  - assert (Hd' : NoDup (PyDict.keys (PyDict.setitem d k v))).
    { rewrite keys_setitem. case_bool_decide as Hin; [done|].
      apply NoDup_app. split_and!; [done| |apply NoDup_singleton].
      intros x Hx ->%list_elem_of_singleton. done. }
    destruct (IH _ Hd') as [Hnd Hk]. split; [done|].
    intros k0. rewrite Hk, keys_setitem, elem_of_cons.
    case_bool_decide as Hin.
    + split; [tauto|]. intros [?|[->|?]]; auto.
    + rewrite elem_of_app, list_elem_of_singleton. tauto.
Qed.

Lemma fold_setitem_values (Q : V → Prop) (ms : list (string * V)) d :
  Forall Q (PyDict.values d) → Forall Q ms.*2 →
  Forall Q (PyDict.values (fold_left (λ d kv, PyDict.setitem d kv.1 kv.2) ms d)).
Proof.
  revert d. induction ms as [|[k v] ms IH]; simpl; intros d Hd Hms; [done|].
  apply Forall_cons in Hms as [Hv Hms].
  apply IH; [by apply setitem_values | done].
Qed.

(** A dict has each of its keys once, and they are the names of the
    object's members. *)
Lemma of_members_keys (ms : list (string * V)) :
  NoDup (PyDict.keys (PyDict.of_members ms)) ∧
  ∀ k, k ∈ PyDict.keys (PyDict.of_members ms) ↔ k ∈ ms.*1.
Proof.
  destruct (fold_setitem_keys ms PyDict.empty) as [Hnd Hk];
    [apply NoDup_nil_2|].
  split; [done|]. intros k. unfold PyDict.of_members. rewrite Hk.
  simpl. rewrite elem_of_nil. tauto.
Qed.

Lemma of_members_values (Q : V → Prop) (ms : list (string * V)) :
  Forall Q ms.*2 → Forall Q (PyDict.values (PyDict.of_members ms)).
Proof. intros. by apply fold_setitem_values; [constructor|]. Qed.
End dict_facts.

(** ** Start-up *)

Section startup_facts.
Context `{Runtime}.
Implicit Types (raw : PyDict.t jvalue) (members : list (string * jvalue)).

Lemma upper_of_Return raw word :
  word ∈ PyDict.keys raw →
  Forall (λ v, is_JStr v = true) (PyDict.values raw) →
  ∃ x, upper_of raw word = Return x ∧ upper_at raw word x.
Proof.
  intros (v & Hget & Hv)%getitem_keys Hstr.
  rewrite Forall_forall in Hstr. specialize (Hstr v Hv).
  unfold upper_of, upper_at. rewrite Hget.
  destruct v as [s|]; [|done]. eauto.
Qed.

Lemma comprehension_Return raw ws :
  ws ⊆ PyDict.keys raw →
  Forall (λ v, is_JStr v = true) (PyDict.values raw) →
  ∃ ds, comprehension raw ws = Return ds ∧ Forall2 (upper_at raw) ws ds.
Proof.
  intros Hsub Hstr. induction ws as [|word ws IH]; simpl.
  - exists []. split; [done | constructor].
  - destruct (upper_of_Return raw word) as (x & -> & Hx); [set_solver|done|].
    destruct IH as (ds & -> & Hds); [set_solver|].
    exists (x :: ds). split; [done | by constructor].
Qed.

(** A comprehension that returns has met strings only. *)
Lemma comprehension_inv raw ws ds :
  comprehension raw ws = Return ds → Forall2 (upper_at raw) ws ds.
Proof.
  revert ds. induction ws as [|word ws IH]; simpl; intros ds Hc.
  - injection Hc as <-. constructor.
  - unfold upper_of in Hc at 1.
    destruct (PyDict.getitem raw word) as [[s|]|] eqn:Hget; [|done..].
    destruct (comprehension raw ws) as [xs|]; [|done].
    injection Hc as <-. constructor; [|by apply IH].
    exists s. done.
Qed.

(** C4: on a data file whose values are all strings, the loader
    returns a list that has, for each key of the raw dict in order,
    the upper-cased value at that key; so each element is an
    upper-cased value of the raw dict, and the list is as long as the
    dict has keys. *)
Theorem load_asl_dataset_flat members :
  Forall (λ v, is_JStr v = true) members.*2 →
  let raw := PyDict.of_members members in
  ∃ ds, load_asl_dataset (Document members) = Return ds ∧
        Forall2 (upper_at raw) (PyDict.keys raw) ds ∧
        Forall (λ x, ∃ s, JStr s ∈ PyDict.values raw ∧ x = upper s) ds ∧
        len ds = len (PyDict.keys raw).
Proof.
  intros Hstr raw.
  destruct (comprehension_Return raw (PyDict.keys raw)) as (ds & Hc & Hds);
    [done | by apply of_members_values |].
  exists ds. split_and!.
  - unfold load_asl_dataset, load_body. simpl. fold raw. by rewrite Hc.
  - done.
  - apply Forall_forall. intros x Hx.
    destruct (list_elem_of_lookup_1 _ _ Hx) as [i Hi].
    destruct (Forall2_lookup_r _ _ _ _ _ Hds Hi) as (word & Hw & s & Hget & ->).
    exists s. split; [|done].
    apply list_elem_of_lookup_2 in Hw.
    destruct (getitem_keys raw word Hw) as (v & Hget' & Hv). congruence.
  - unfold len. f_equal. symmetry. by eapply Forall2_length.
Qed.

(** C5: with the data file missing the module does not start: loading
    ends with a [RuntimeError], for no vocabulary at all. *)
Theorem load_asl_dataset_missing :
  load_asl_dataset NoSuchFile =
    Raise (PyExc "RuntimeError"
             "ASL dataset file not found at ./data/english_words.json") ∧
  ∀ ds, load_asl_dataset NoSuchFile ≠ Return ds.
Proof. split; [reflexivity | intros ds; discriminate]. Qed.
End startup_facts.

(** ** Handlers *)

(** Runs the sequencing of handlers on the state at hand. *)
Ltac run_handler :=
  unfold mbind, handler_bind, bind, mret, handler_ret, ret, raise_if, raise,
    getenv, read_asl_dataset; simpl.

Section handler_facts.
Context `{Runtime}.
Variable SginGPTCrew : nat → kickoff_inputs → crew_outcome.
Implicit Types (st : server) (request : ProcessTokensRequest).

(** The body of the [try] stops at the first check when no key is
    configured. *)
Lemma process_tokens_try_no_key request st :
  openai_key_configured st = false →
  process_tokens_try SginGPTCrew request st =
    (Raise (HTTPException 500
       "OPENAI_API_KEY not configured. Please set it in your environment or .env file."),
     st).
Proof.
  unfold openai_key_configured, process_tokens_try. intros Hkey.
  run_handler. by rewrite Hkey.
Qed.

(** With a key, it stops at the second check when [words] is empty. *)
Lemma process_tokens_try_empty request st :
  openai_key_configured st = true →
  words request = [] →
  process_tokens_try SginGPTCrew request st =
    (Raise (HTTPException 400 "Words list cannot be empty"), st).
Proof.
  unfold openai_key_configured, process_tokens_try. intros Hkey Hwords.
  run_handler. by rewrite Hkey, Hwords.
Qed.

(** Past both checks, it makes one kickoff and passes on what that does. *)
Lemma process_tokens_try_kickoff request st :
  openai_key_configured st = true →
  words request ≠ [] →
  process_tokens_try SginGPTCrew request st =
    (match SginGPTCrew (length (kickoffs st)) (inputs_of request st) with
     | CrewReturn text => Return {| result := text |}
     | CrewRaise e => Raise e
     end,
     record_kickoff (inputs_of request st) st).
Proof.
  unfold openai_key_configured, process_tokens_try. intros Hkey Hwords.
  run_handler. rewrite Hkey. simpl.
  destruct (words request) eqn:Hw; [done|]. simpl.
  unfold kickoff, inputs_of. rewrite Hw.
  by destruct (SginGPTCrew _ _).
Qed.

(** C6: without a configured key the endpoint fails with status 500
    and a message. *)
Theorem process_tokens_no_key request st :
  openai_key_configured st = false →
  process_tokens SginGPTCrew request st =
    (Raise (HTTPException 500
       ("Error processing tokens: " +:+
        str (HTTPException 500
          "OPENAI_API_KEY not configured. Please set it in your environment or .env file."))),
     st).
Proof.
  intros Hkey. unfold process_tokens, try_except_Exception.
  by rewrite process_tokens_try_no_key.
Qed.

(** C7, amended: an exception that the crew raises, of a class deriving
    from [Exception], is caught by the [except Exception] clause and
    comes out as status 500 with a message made of the exception's text;
    the crew was kicked off once and not again. *)
Theorem process_tokens_crew_raises request st e :
  openai_key_configured st = true →
  words request ≠ [] →
  SginGPTCrew (length (kickoffs st)) (inputs_of request st) = CrewRaise e →
  isinstance_Exception e = true →
  process_tokens SginGPTCrew request st =
    (Raise (HTTPException 500 ("Error processing tokens: " +:+ str e)),
     record_kickoff (inputs_of request st) st) ∧
  kickoffs (process_tokens SginGPTCrew request st).2 =
    kickoffs st ++ [inputs_of request st].
Proof.
  intros Hkey Hwords Hcrew Hexc.
  assert (Hrun : process_tokens SginGPTCrew request st =
    (Raise (HTTPException 500 ("Error processing tokens: " +:+ str e)),
     record_kickoff (inputs_of request st) st)).
  { unfold process_tokens, try_except_Exception.
    rewrite process_tokens_try_kickoff, Hcrew, Hexc by done. done. }
  split; [done|]. by rewrite Hrun.
Qed.

(** What the endpoint does on an empty [words], for any key that is
    configured: the 400 raised in the [try] is itself caught by the
    [except Exception] clause. *)
Lemma process_tokens_empty request st :
  openai_key_configured st = true →
  words request = [] →
  process_tokens SginGPTCrew request st =
    (Raise (HTTPException 500
       ("Error processing tokens: " +:+
        str (HTTPException 400 "Words list cannot be empty"))),
     st).
Proof.
  intros Hkey Hwords. unfold process_tokens, try_except_Exception.
  by rewrite process_tokens_try_empty.
Qed.

(** X1: with a key and words, a kickoff that returns gives the answer:
    the result is the crew's text, and the crew was kicked off once, on
    the request's words and the loaded dataset. *)
Lemma process_tokens_returns request st text :
  openai_key_configured st = true →
  words request ≠ [] →
  SginGPTCrew (length (kickoffs st)) (inputs_of request st) = CrewReturn text →
  process_tokens SginGPTCrew request st =
    (Return {| result := text |}, record_kickoff (inputs_of request st) st).
Proof.
  intros Hkey Hwords Hcrew. unfold process_tokens, try_except_Exception.
  by rewrite process_tokens_try_kickoff, Hcrew.
Qed.

(** C1: on an empty [words] list, with a key configured, the endpoint
    answers 500, not 400. *)
Theorem process_tokens_empty_words_500 :
  process_tokens SginGPTCrew {| words := [] |} server_with_key =
    (Raise (HTTPException 500
       ("Error processing tokens: " +:+
        str_HTTPException 400 "Words list cannot be empty")),
     server_with_key).
Proof. by apply process_tokens_empty. Qed.
End handler_facts.

(** ** The read-only endpoints *)

Lemma slice_to_take {A : Type} (n : nat) (l : list A) : slice_to n l = take n l.
Proof.
  revert l. induction n as [|n IH]; intros [|x l]; simpl; [done..|].
  by rewrite IH.
Qed.

(** C8: GET /asl-dataset gives the length of the dataset and its first
    20 elements, which are all of them when there are no more than 20. *)
Theorem get_asl_dataset_sample (st : server) :
  ∃ info, get_asl_dataset st = (Return info, st) ∧
          total_words info = len (asl_dataset st) ∧
          sample_words info = take 20 (asl_dataset st) ∧
          (∀ i : nat, (i < 20)%nat →
             sample_words info !! i = asl_dataset st !! i) ∧
          length (sample_words info) = (length (asl_dataset st) `min` 20)%nat ∧
          ((length (asl_dataset st) ≤ 20)%nat →
             sample_words info = asl_dataset st).
Proof.
  eexists. split; [reflexivity|].
  cbn [total_words sample_words]. rewrite slice_to_take.
  split_and!; [done..| | |].
  - intros i Hi. by apply lookup_take_lt.
  - by rewrite length_take, Nat.min_comm.
  - intros Hlen. by apply take_ge.
Qed.

(** C9: GET /health says "warning" exactly when no key is configured
    and "healthy" otherwise, and gives the length of the dataset. *)
Theorem health_check_status (st : server) :
  ∃ r, health_check st = (Return r, st) ∧
       (status r = "warning" ↔ openai_key_configured st = false) ∧
       (status r = "healthy" ↔ openai_key_configured st = true) ∧
       asl_dataset_size r = len (asl_dataset st).
Proof.
  exists {| status := if openai_key_configured st then "healthy" else "warning";
            message := if openai_key_configured st then "Service is running"
                       else "Service running but OPENAI_API_KEY not configured";
            asl_dataset_size := len (asl_dataset st) |}.
  split; [reflexivity|]. cbn [status asl_dataset_size].
  destruct (openai_key_configured st); split_and!; done.
Qed.

(** ** POST /validate-tokens *)

Section validate_facts.
Context `{Runtime}.
Implicit Types (dataset tokens : list string) (token : string) (st : server).

Lemma validate_loop_snoc dataset tokens token :
  validate_loop dataset (tokens ++ [token]) =
  validate_step dataset (validate_loop dataset tokens) token.
Proof. unfold validate_loop. by rewrite fold_left_app. Qed.

Lemma validate_step_results dataset acc token :
  l_validation_results (validate_step dataset acc token) =
  <[token := verdict dataset token]> (l_validation_results acc).
Proof. unfold validate_step, verdict. by case_bool_decide. Qed.

(** The two lists after the loop: the upper-cased tokens found in the
    dataset, and the tokens not found, both in the order of the input
    and with its repetitions. *)
Lemma validate_loop_lists dataset tokens :
  l_valid_tokens (validate_loop dataset tokens) =
    upper <$> filter (λ t, upper t ∈ dataset) tokens ∧
  l_invalid_tokens (validate_loop dataset tokens) =
    filter (λ t, upper t ∉ dataset) tokens.
Proof.
  induction tokens as [|token tokens [IHv IHi]] using rev_ind; [done|].
  rewrite validate_loop_snoc, !filter_app, fmap_app.
  unfold validate_step. case_bool_decide as Hin; simpl.
  - rewrite IHv, IHi, filter_cons_True, filter_cons_False by auto.
    by rewrite filter_nil, app_nil_r.
  - rewrite IHv, IHi, filter_cons_False, filter_cons_True by auto.
    by rewrite filter_nil, app_nil_r.
Qed.

(** Each turn of the loop extends exactly one of the two lists. *)
Lemma validate_loop_counts dataset tokens :
  (length (l_valid_tokens (validate_loop dataset tokens)) +
   length (l_invalid_tokens (validate_loop dataset tokens)) =
   length tokens)%nat.
Proof.
  induction tokens as [|token tokens IH] using rev_ind; [done|].
  rewrite validate_loop_snoc, length_app. unfold validate_step.
  case_bool_decide; simpl; rewrite ?length_app; simpl; lia.
Qed.

(** The dict after the loop has an entry for the tokens of the input,
    and only for them; a repeated token is stored again with the same
    entry. *)
Lemma validate_loop_results dataset tokens token :
  l_validation_results (validate_loop dataset tokens) !! token =
  if bool_decide (token ∈ tokens) then Some (verdict dataset token) else None.
Proof.
  induction tokens as [|t tokens IH] using rev_ind.
  - rewrite bool_decide_eq_false_2 by apply not_elem_of_nil. done.
  - rewrite validate_loop_snoc, validate_step_results.
    destruct (decide (t = token)) as [->|Hne].
    + rewrite lookup_insert_eq, bool_decide_eq_true_2; [done|].
      apply elem_of_app. right. by apply list_elem_of_singleton.
    + rewrite lookup_insert_ne, IH by done.
      rewrite (bool_decide_ext (token ∈ tokens ++ [t]) (token ∈ tokens));
        [done|].
      rewrite elem_of_app, list_elem_of_singleton.
      split; [intros [?|?]; [done | congruence] | auto].
Qed.

Lemma validate_tokens_run tokens st :
  validate_tokens tokens st =
    (Return
       {| validation_results :=
            l_validation_results (validate_loop (asl_dataset st) tokens);
          summary :=
            {| total_tokens := len tokens;
               valid_count :=
                 len (l_valid_tokens (validate_loop (asl_dataset st) tokens));
               invalid_count :=
                 len (l_invalid_tokens (validate_loop (asl_dataset st) tokens));
               valid_tokens :=
                 l_valid_tokens (validate_loop (asl_dataset st) tokens);
               invalid_tokens :=
                 l_invalid_tokens (validate_loop (asl_dataset st) tokens) |} |},
     st).
Proof. reflexivity. Qed.

(** C2: in the summary the two counts add up to [total_tokens], which
    is the length of the input. *)
Theorem validate_tokens_counts tokens st :
  ∃ v, validate_tokens tokens st = (Return v, st) ∧
       valid_count (summary v) + invalid_count (summary v) =
         total_tokens (summary v) ∧
       total_tokens (summary v) = len tokens.
Proof.
  eexists. split; [apply validate_tokens_run|]. simpl. split; [|done].
  unfold len. rewrite <- Nat2Z.inj_add. f_equal. apply validate_loop_counts.
Qed.

(** C3: a token of the input is looked up in upper case: its entry
    says valid exactly when the upper-cased token is in the dataset;
    [normalized] is then the upper-cased token, and null otherwise. *)
Theorem validate_tokens_entry tokens st token :
  token ∈ tokens →
  ∃ v r, validate_tokens tokens st = (Return v, st) ∧
         validation_results v !! token = Some r ∧
         (valid r = true ↔ upper token ∈ asl_dataset st) ∧
         (upper token ∈ asl_dataset st → normalized r = Some (upper token)) ∧
         (upper token ∉ asl_dataset st → normalized r = None).
Proof.
  intros Hin. eexists. exists (verdict (asl_dataset st) token).
  split; [apply validate_tokens_run|]. simpl. split.
  - by rewrite validate_loop_results, bool_decide_eq_true_2.
  - unfold verdict. case_bool_decide; simpl; naive_solver.
Qed.

(** C10: every element of [valid_tokens] is the upper-cased form of a
    token of the input and is in the dataset; every element of
    [invalid_tokens] is a token of the input as it was sent. *)
Theorem validate_tokens_lists tokens st :
  ∃ v, validate_tokens tokens st = (Return v, st) ∧
       Forall (λ x, x ∈ asl_dataset st ∧ ∃ t, t ∈ tokens ∧ x = upper t)
         (valid_tokens (summary v)) ∧
       Forall (λ y, y ∈ tokens ∧ upper y ∉ asl_dataset st)
         (invalid_tokens (summary v)).
Proof.
  eexists. split; [apply validate_tokens_run|]. simpl.
  destruct (validate_loop_lists (asl_dataset st) tokens) as [-> ->].
  split; apply Forall_forall.
  - intros x (t & -> & [Hin Ht]%list_elem_of_filter)%list_elem_of_fmap.
    eauto.
  - intros y [Hy Hin]%list_elem_of_filter. done.
Qed.
End validate_facts.

(** ** The handlers at work on the sample server *)

Example load_sample :
  @load_asl_dataset ascii_runtime sample_file = Return sample_dataset.
Proof. reflexivity. Qed.

Example load_number_value :
  @load_asl_dataset ascii_runtime
    (Document [("one", JStr "one"); ("two", JOther "int")]) =
  Raise (PyExc "AttributeError" "'int' object has no attribute 'upper'").
Proof. reflexivity. Qed.

Example process_tokens_sample :
  @process_tokens ascii_runtime (echo_crew "What is your name?")
    {| words := ["YOU"; "NAME"; "WHAT"] |} server_with_key =
  (Return {| result := "What is your name?" |},
   record_kickoff
     {| in_words := ["YOU"; "NAME"; "WHAT"]; in_ASL_dataset := sample_dataset |}
     server_with_key).
Proof. reflexivity. Qed.

Example process_tokens_empty_sample :
  (@process_tokens ascii_runtime (echo_crew "What is your name?")
     {| words := [] |} server_with_key).1 =
  Raise (HTTPException 500
           "Error processing tokens: 400: Words list cannot be empty").
Proof. reflexivity. Qed.

(** C7 as the specification states it, for every exception of the
    crew, fails: with a key and words, a crew that raises [SystemExit]
    ends the handler with that [SystemExit], and with no HTTP error of
    status 500. *)
Lemma process_tokens_crew_raises_uncaught :
  let request := {| words := ["YOU"] |} in
  let e := PyBaseExc "SystemExit" "1" in
  openai_key_configured server_with_key = true ∧
  words request ≠ [] ∧
  failing_crew e (length (kickoffs server_with_key))
    (inputs_of request server_with_key) = CrewRaise e ∧
  (@process_tokens ascii_runtime (failing_crew e) request server_with_key).1 =
    Raise e ∧
  ∀ detail,
    (@process_tokens ascii_runtime (failing_crew e) request server_with_key).1 ≠
      Raise (HTTPException 500 detail).
Proof.
  intros request e. split_and!; [reflexivity|discriminate|reflexivity..|].
  intros detail. discriminate.
Qed.

(** An exception that does not derive from [Exception] is not caught. *)
Example process_tokens_system_exit :
  (@process_tokens ascii_runtime (failing_crew (PyBaseExc "SystemExit" "1"))
     {| words := ["YOU"] |} server_with_key).1 =
  Raise (PyBaseExc "SystemExit" "1").
Proof. reflexivity. Qed.

Example validate_tokens_sample :
  summary
    match (@validate_tokens ascii_runtime ["you"; "Foo"; "you"; "NAME"]
             server_with_key).1 with
    | Return v => v
    | Raise _ => {| validation_results := ∅;
                    summary := {| total_tokens := 0; valid_count := 0;
                                  invalid_count := 0; valid_tokens := [];
                                  invalid_tokens := [] |} |}
    end =
  {| total_tokens := 4; valid_count := 3; invalid_count := 1;
     valid_tokens := ["YOU"; "YOU"; "NAME"]; invalid_tokens := ["Foo"] |}.
Proof. vm_compute. reflexivity. Qed.

Lemma load_asl_dataset_flat_witness :
  Forall (λ v, is_JStr v = true) sample_members.*2 ∧
  let raw := PyDict.of_members sample_members in
  ∃ ds, @load_asl_dataset ascii_runtime (Document sample_members) = Return ds ∧
        Forall2 (@upper_at ascii_runtime raw) (PyDict.keys raw) ds ∧
        Forall (λ x, ∃ s, JStr s ∈ PyDict.values raw ∧ x = string_upper s) ds ∧
        len ds = len (PyDict.keys raw).
Proof.
  assert (Hstr : Forall (λ v, is_JStr v = true) sample_members.*2)
    by (repeat constructor).
  split; [exact Hstr|].
  exact (@load_asl_dataset_flat ascii_runtime sample_members Hstr).
Defined.

Lemma process_tokens_no_key_witness :
  openai_key_configured server_without_key = false ∧
  @process_tokens ascii_runtime (echo_crew "Hello") {| words := ["HELLO"] |}
    server_without_key =
  (Raise (HTTPException 500
     "Error processing tokens: 500: OPENAI_API_KEY not configured. Please set it in your environment or .env file."),
   server_without_key).
Proof.
  split; [reflexivity|].
  exact (@process_tokens_no_key ascii_runtime (echo_crew "Hello")
           {| words := ["HELLO"] |} server_without_key eq_refl).
Defined.

Lemma process_tokens_crew_raises_witness :
  let request := {| words := ["YOU"; "NAME"] |} in
  let e := PyExc "RuntimeError" "rate limit reached" in
  @process_tokens ascii_runtime (failing_crew e) request server_with_key =
    (Raise (HTTPException 500 "Error processing tokens: rate limit reached"),
     record_kickoff (inputs_of request server_with_key) server_with_key) ∧
  kickoffs
    (@process_tokens ascii_runtime (failing_crew e) request server_with_key).2 =
    [inputs_of request server_with_key].
Proof.
  intros request e.
  refine (@process_tokens_crew_raises ascii_runtime (failing_crew e) request
            server_with_key e eq_refl _ eq_refl eq_refl).
  discriminate.
Defined.

Lemma validate_tokens_entry_witness :
  "you" ∈ ["you"; "Foo"] ∧
  ∃ v r, @validate_tokens ascii_runtime ["you"; "Foo"] server_with_key =
           (Return v, server_with_key) ∧
         validation_results v !! "you" = Some r ∧
         (valid r = true ↔ "YOU" ∈ sample_dataset) ∧
         ("YOU" ∈ sample_dataset → normalized r = Some "YOU") ∧
         ("YOU" ∉ sample_dataset → normalized r = None).
Proof.
  assert (Hin : "you" ∈ ["you"; "Foo"]) by constructor.
  split; [exact Hin|].
  exact (@validate_tokens_entry ascii_runtime ["you"; "Foo"] server_with_key
           "you" Hin).
Defined.

(** * Further properties of the handlers *)

(** ** POST /process-tokens, case by case *)

Section process_facts.
Context `{Runtime}.
Variable SginGPTCrew : nat → kickoff_inputs → crew_outcome.
Implicit Types (st : server) (request : ProcessTokensRequest).

(** All that the endpoint can do, in the order the code decides it. *)
Lemma process_tokens_cases request st :
  process_tokens SginGPTCrew request st =
    if negb (openai_key_configured st) then
      (Raise (HTTPException 500
         ("Error processing tokens: " +:+
          str (HTTPException 500
            "OPENAI_API_KEY not configured. Please set it in your environment or .env file."))),
       st)
    else if negb (bool_list (words request)) then
      (Raise (HTTPException 500
         ("Error processing tokens: " +:+
          str (HTTPException 400 "Words list cannot be empty"))),
       st)
    else
      (match SginGPTCrew (length (kickoffs st)) (inputs_of request st) with
       | CrewReturn text => Return {| result := text |}
       | CrewRaise e =>
           if isinstance_Exception e
           then Raise (HTTPException 500
                         ("Error processing tokens: " +:+ str e))
           else Raise e
       end,
       record_kickoff (inputs_of request st) st).
Proof.
  unfold process_tokens, try_except_Exception.
  destruct (openai_key_configured st) eqn:Hkey; simpl.
  - destruct (words request) as [|w ws] eqn:Hwords; simpl.
    + by rewrite process_tokens_try_empty.
    + rewrite process_tokens_try_kickoff by (done || by rewrite Hwords).
      destruct (SginGPTCrew _ _) as [text|e]; [done|].
      by destruct (isinstance_Exception e).
  - by rewrite process_tokens_try_no_key.
Qed.

(** X2: a request that fails a check (no key, or no words) leaves the
    server as it was: the crew is not kicked off. *)
Theorem process_tokens_rejected_no_kickoff request st :
  openai_key_configured st = false ∨ words request = [] →
  (process_tokens SginGPTCrew request st).2 = st.
Proof.
  intros Hrej. rewrite process_tokens_cases.
  destruct (openai_key_configured st); simpl; [|done].
  destruct Hrej as [? | ->]; done.
Qed.

(** X4: an [HTTPException] that leaves the endpoint has status 500 and
    a detail that starts with "Error processing tokens: ", whatever was
    raised inside. *)
Theorem process_tokens_http_error request st status_code detail :
  (process_tokens SginGPTCrew request st).1 =
    Raise (HTTPException status_code detail) →
  status_code = 500 ∧
  ∃ text, detail = "Error processing tokens: " +:+ text.
Proof.
  rewrite process_tokens_cases.
  destruct (openai_key_configured st); simpl.
  - destruct (bool_list (words request)); simpl.
    + destruct (SginGPTCrew _ _) as [text|e]; [done|].
      destruct e as [s d|cls text|cls text]; simpl;
        intros [= <- <-]; eauto.
    + intros [= <- <-]. eauto.
  - intros [= <- <-]. eauto.
Qed.

(** X5: an exception of the crew that does not derive from [Exception]
    leaves the endpoint as it is, not as an HTTP error. *)
Theorem process_tokens_base_exception request st e :
  openai_key_configured st = true →
  words request ≠ [] →
  SginGPTCrew (length (kickoffs st)) (inputs_of request st) = CrewRaise e →
  isinstance_Exception e = false →
  process_tokens SginGPTCrew request st =
    (Raise e, record_kickoff (inputs_of request st) st).
Proof.
  intros Hkey Hwords Hcrew Hexc. rewrite process_tokens_cases, Hkey. simpl.
  destruct (words request); [done|]. simpl. by rewrite Hcrew, Hexc.
Qed.
End process_facts.

(** ** More on dictionaries *)

Section dict_more.
Context {V : Type}.
Implicit Types (d : PyDict.t V) (k : string) (v : V).

Lemma keys_fmap d : PyDict.keys d = d.*1.
Proof. reflexivity. Qed.

Lemma values_fmap d : PyDict.values d = d.*2.
Proof. reflexivity. Qed.

(** In a dict, the value read at the [i]-th key is the [i]-th value. *)
Lemma getitem_lookup d (i : nat) k v :
  NoDup (PyDict.keys d) → d !! i = Some (k, v) → PyDict.getitem d k = Some v.
Proof.
  unfold PyDict.keys. revert i.
  induction d as [|[k' v'] d IH]; intros i Hnd Hi; [done|]. simpl in *.
  apply NoDup_cons in Hnd as [Hk' Hnd].
  destruct i as [|i]; simpl in Hi.
  - injection Hi as -> ->. by rewrite String.eqb_refl.
  - destruct (String.eqb_spec k' k) as [->|Hne]; [|by eapply IH].
    destruct Hk'. apply list_elem_of_lookup. exists i.
    by rewrite list_lookup_fmap, Hi.
Qed.

Lemma setitem_fresh d k v :
  k ∉ PyDict.keys d → PyDict.setitem d k v = d ++ [(k, v)].
Proof.
  unfold PyDict.keys.
  induction d as [|[k' v'] d IH]; simpl; intros Hk; [done|].
  apply not_elem_of_cons in Hk as [Hne Hk].
  destruct (String.eqb_spec k' k) as [->|_]; [done|]. by rewrite IH.
Qed.

Lemma fold_setitem_fresh (ms : list (string * V)) d :
  NoDup (PyDict.keys d ++ ms.*1) →
  fold_left (λ d kv, PyDict.setitem d kv.1 kv.2) ms d = d ++ ms.
Proof.
  revert d. induction ms as [|[k v] ms IH]; simpl; intros d Hnd.
  - by rewrite app_nil_r.
  - rewrite setitem_fresh.
    + rewrite IH, <- app_assoc; [done|].
      unfold PyDict.keys in *. by rewrite fmap_app, <- app_assoc.
    + apply NoDup_app in Hnd as (_ & Hdis & _).
      intros Hk. apply (Hdis k Hk). left.
Qed.

(** An object whose member names are all different is its own dict. *)
Lemma of_members_distinct (ms : list (string * V)) :
  NoDup ms.*1 → PyDict.of_members ms = ms.
Proof. intros Hnd. unfold PyDict.of_members. by rewrite fold_setitem_fresh. Qed.
End dict_more.

(** ** More on start-up *)

Section startup_more.
Context `{Runtime}.
Implicit Types (raw : PyDict.t jvalue) (members : list (string * jvalue)).

(** Over keys of the dict, the comprehension returns, or it stops at a
    value that is not a string. *)
Lemma comprehension_total raw ws :
  ws ⊆ PyDict.keys raw →
  (∃ ds, comprehension raw ws = Return ds) ∨
  (∃ type_name, JOther type_name ∈ PyDict.values raw ∧
     comprehension raw ws =
       Raise (PyExc "AttributeError"
                ("'" +:+ type_name +:+ "' object has no attribute 'upper'"))).
Proof.
  intros Hsub. induction ws as [|word ws IH]; simpl; [by eauto|].
  destruct (getitem_keys raw word) as (v & Hget & Hv);
    [apply Hsub; left|].
  unfold upper_of. rewrite Hget. destruct v as [s|type_name].
  - destruct IH as [[ds ->]|(ty & Hty & ->)]; [|by eauto..].
    intros w Hw. apply Hsub. by right.
  - right. by eauto.
Qed.

(** What the comprehension returns is, value by value, the dict in
    upper case. *)
Lemma comprehension_values raw ds :
  NoDup (PyDict.keys raw) →
  comprehension raw (PyDict.keys raw) = Return ds →
  Forall2 upper_of_value (PyDict.values raw) ds.
Proof.
  intros Hnd Hds. apply comprehension_inv in Hds.
  apply Forall2_same_length_lookup. split.
  - apply Forall2_length in Hds. rewrite keys_fmap, length_fmap in Hds.
    by rewrite values_fmap, length_fmap.
  - intros i v x Hv Hx. rewrite values_fmap in Hv.
    apply list_lookup_fmap_Some in Hv as ([k v'] & -> & Hi). simpl.
    assert (Hk : PyDict.keys raw !! i = Some k).
    { rewrite keys_fmap. apply list_lookup_fmap_Some. by exists (k, v'). }
    destruct (Forall2_lookup_lr _ _ _ _ _ _ Hds Hk Hx) as (s & Hget & ->).
    exists s. split; [|done].
    rewrite (getitem_lookup raw i k v' Hnd Hi) in Hget. congruence.
Qed.

Lemma load_asl_dataset_Document members :
  load_asl_dataset (Document members) =
  match comprehension (PyDict.of_members members)
          (PyDict.keys (PyDict.of_members members)) with
  | Return ds => Return ds
  | Raise e => if isinstance_FileNotFoundError e
               then Raise (PyExc "RuntimeError"
                      "ASL dataset file not found at ./data/english_words.json")
               else Raise e
  end.
Proof.
  unfold load_asl_dataset, load_body. simpl.
  by destruct (comprehension _ _).
Qed.

Lemma load_asl_dataset_Document_total members :
  let raw := PyDict.of_members members in
  (∃ ds, comprehension raw (PyDict.keys raw) = Return ds ∧
         load_asl_dataset (Document members) = Return ds) ∨
  (∃ type_name,
     JOther type_name ∈ PyDict.values raw ∧
     load_asl_dataset (Document members) =
       Raise (PyExc "AttributeError"
                ("'" +:+ type_name +:+ "' object has no attribute 'upper'"))).
Proof.
  intros raw. rewrite load_asl_dataset_Document. fold raw.
  destruct (comprehension_total raw (PyDict.keys raw))
    as [[ds Hds]|(ty & Hty & Hfail)]; [done| |].
  - left. exists ds. by rewrite Hds.
  - right. exists ty. by rewrite Hfail.
Qed.

(** X6: on a parsed data file the loader does one of two things: every
    value of the raw dict is a string and a dataset is returned, or some
    value is not a string and start-up ends with the [AttributeError] of
    that value's type. *)
Theorem load_asl_dataset_strings_or_fails members :
  let raw := PyDict.of_members members in
  (Forall (λ v, is_JStr v = true) (PyDict.values raw) ∧
   ∃ ds, load_asl_dataset (Document members) = Return ds ∧
         Forall2 upper_of_value (PyDict.values raw) ds)
  ∨
  (∃ type_name,
     JOther type_name ∈ PyDict.values raw ∧
     load_asl_dataset (Document members) =
       Raise (PyExc "AttributeError"
                ("'" +:+ type_name +:+ "' object has no attribute 'upper'"))).
Proof.
  intros raw.
  destruct (load_asl_dataset_Document_total members)
    as [(ds & Hds & Hload)|Hfail]; [|by right].
  left.
  pose proof (comprehension_values raw ds
                (proj1 (of_members_keys members)) Hds) as Hvals.
  split; [|by eauto].
  apply Forall_forall. intros v Hv.
  destruct (list_elem_of_lookup_1 _ _ Hv) as [i Hi].
  destruct (Forall2_lookup_l _ _ _ _ _ Hvals Hi) as (x & _ & s & -> & _).
  done.
Qed.

End startup_more.

Section vocabulary_facts.
Context `{Runtime}.
Implicit Types (members : list (string * jvalue)) (st : server).

Lemma upper_of_strings (strs ds : list string) :
  Forall2 (λ s x, upper_of_value (JStr s) x) strs ds → ds = upper <$> strs.
Proof.
  induction 1 as [|s x strs ds (s' & Hs & ->) _ IH]; [done|].
  injection Hs as ->. simpl. by rewrite IH.
Qed.

(** X8: a data file that gives each word once loads as the list of its
    display strings in upper case, in the order of the file. *)
Theorem load_asl_dataset_distinct (pairs : list (string * string)) :
  NoDup pairs.*1 →
  load_asl_dataset (Document ((λ kv, (kv.1, JStr kv.2)) <$> pairs)) =
    Return (upper <$> pairs.*2).
Proof.
  intros Hnd. set (members := (λ kv, (kv.1, JStr kv.2)) <$> pairs).
  assert (Hraw : PyDict.of_members members = members).
  { apply of_members_distinct. unfold members.
    rewrite <- list_fmap_compose. done. }
  assert (Hvals : PyDict.values members = JStr <$> pairs.*2).
  { rewrite values_fmap. unfold members. by rewrite <- !list_fmap_compose. }
  destruct (load_asl_dataset_Document_total members)
    as [(ds & Hds & ->)|(ty & Hty & _)]; rewrite Hraw in *.
  - f_equal. apply comprehension_values in Hds;
      [|rewrite keys_fmap; unfold members; by rewrite <- list_fmap_compose].
    rewrite Hvals, Forall2_fmap_l in Hds.
    by apply upper_of_strings.
  - rewrite Hvals in Hty. by apply list_elem_of_fmap in Hty as (s & ? & _).
Qed.

(** X9: the loaded dataset has one element for each different word of
    the data file, however often the file repeats a word. *)
Theorem load_asl_dataset_length members ds :
  load_asl_dataset (Document members) = Return ds →
  length ds = size (list_to_set members.*1 : gset string).
Proof.
  intros Hload.
  destruct (load_asl_dataset_Document_total members)
    as [(ds' & Hds & Hload')|(ty & _ & Hfail)]; [|congruence].
  assert (ds' = ds) as -> by congruence.
  apply comprehension_inv, Forall2_length in Hds. rewrite <- Hds.
  destruct (of_members_keys members) as [Hnd Hkeys].
  rewrite <- (size_list_to_set (C:=gset string) _ Hnd). f_equal.
  apply set_eq. intros k. by rewrite !elem_of_list_to_set, Hkeys.
Qed.

(** X10: on a server started from a data file, a display string of the
    file is a valid token, as it is written in the file: its entry says
    valid, and its upper-cased form is among the valid tokens. *)
Theorem vocabulary_string_valid members st s tokens :
  load_asl_dataset (Document members) = Return (asl_dataset st) →
  JStr s ∈ PyDict.values (PyDict.of_members members) →
  s ∈ tokens →
  ∃ v, validate_tokens tokens st = (Return v, st) ∧
       validation_results v !! s =
         Some {| valid := true; normalized := Some (upper s) |} ∧
       upper s ∈ valid_tokens (summary v).
Proof.
  intros Hload Hs Hin.
  assert (Hup : upper s ∈ asl_dataset st).
  { destruct (load_asl_dataset_Document_total members)
      as [(ds & Hds & Hload')|(ty & _ & Hfail)]; [|congruence].
    assert (ds = asl_dataset st) as -> by congruence.
    apply comprehension_values in Hds; [|apply of_members_keys].
    destruct (list_elem_of_lookup_1 _ _ Hs) as [i Hi].
    destruct (Forall2_lookup_l _ _ _ _ _ Hds Hi) as (x & Hx & s' & Hs' & ->).
    injection Hs' as ->. by eapply list_elem_of_lookup_2. }
  eexists. split; [apply validate_tokens_run|]. simpl. split.
  - rewrite validate_loop_results, bool_decide_eq_true_2 by done.
    unfold verdict. by rewrite bool_decide_eq_true_2.
  - destruct (validate_loop_lists (asl_dataset st) tokens) as [-> _].
    apply list_elem_of_fmap. exists s. split; [done|].
    by apply list_elem_of_filter.
Qed.
End vocabulary_facts.

(** ** More on POST /validate-tokens *)

Section validate_more.
Context `{Runtime}.
Implicit Types (dataset tokens : list string) (token : string) (st : server).

(** X11: [valid_tokens] is the input with the tokens not in the dataset
    taken out and the others put in upper case, and [invalid_tokens] is
    the input with the tokens in the dataset taken out: both keep the
    order of the input and its repetitions. *)
Theorem validate_tokens_filter tokens st :
  ∃ v, validate_tokens tokens st = (Return v, st) ∧
       valid_tokens (summary v) =
         upper <$> filter (λ t, upper t ∈ asl_dataset st) tokens ∧
       invalid_tokens (summary v) =
         filter (λ t, upper t ∉ asl_dataset st) tokens.
Proof.
  eexists. split; [apply validate_tokens_run|]. simpl.
  apply validate_loop_lists.
Qed.

(** X12: [validation_results] has an entry for each different token of
    the input and for nothing else, so it has no more entries than
    [total_tokens]. *)
Theorem validate_tokens_keys tokens st :
  ∃ v, validate_tokens tokens st = (Return v, st) ∧
       dom (validation_results v) = list_to_set tokens ∧
       Z.of_nat (size (validation_results v)) ≤ total_tokens (summary v).
Proof.
  eexists. split; [apply validate_tokens_run|]. simpl.
  assert (Hdom : dom (l_validation_results
                        (validate_loop (asl_dataset st) tokens)) =
                 list_to_set tokens).
  { apply set_eq. intros t.
    rewrite elem_of_dom, validate_loop_results, elem_of_list_to_set.
    case_bool_decide; split; intros Ht; done. }
  split; [done|].
  rewrite <- size_dom, Hdom. unfold len. apply inj_le.
  apply submseteq_length, NoDup_submseteq; [apply NoDup_elements|].
  intros t. by rewrite elem_of_elements, elem_of_list_to_set.
Qed.

(** X13: the dict and the two lists of the summary agree: for a token
    of the input, the entry says valid exactly when the upper-cased
    token is in [valid_tokens], and not valid exactly when the token is
    in [invalid_tokens]. *)
Theorem validate_tokens_coherent tokens st token :
  token ∈ tokens →
  ∃ v r, validate_tokens tokens st = (Return v, st) ∧
         validation_results v !! token = Some r ∧
         (valid r = true ↔ upper token ∈ valid_tokens (summary v)) ∧
         (valid r = false ↔ token ∈ invalid_tokens (summary v)).
Proof.
  intros Hin. eexists. exists (verdict (asl_dataset st) token).
  split; [apply validate_tokens_run|]. simpl.
  destruct (validate_loop_lists (asl_dataset st) tokens) as [-> ->].
  split; [by rewrite validate_loop_results, bool_decide_eq_true_2|].
  rewrite list_elem_of_fmap, list_elem_of_filter.
  unfold verdict. case_bool_decide as Hup; simpl; split; split; try done.
  - intros _. exists token. by rewrite list_elem_of_filter.
  - by intros [].
  - intros (t & Heq & [Ht _]%list_elem_of_filter). congruence.
Qed.

(** X14: validating a list in two parts gives the same two lists and
    counts as validating it at once. *)
Theorem validate_tokens_app tokens1 tokens2 st :
  ∃ v1 v2 v,
    validate_tokens tokens1 st = (Return v1, st) ∧
    validate_tokens tokens2 st = (Return v2, st) ∧
    validate_tokens (tokens1 ++ tokens2) st = (Return v, st) ∧
    valid_tokens (summary v) =
      valid_tokens (summary v1) ++ valid_tokens (summary v2) ∧
    invalid_tokens (summary v) =
      invalid_tokens (summary v1) ++ invalid_tokens (summary v2) ∧
    valid_count (summary v) =
      valid_count (summary v1) + valid_count (summary v2) ∧
    invalid_count (summary v) =
      invalid_count (summary v1) + invalid_count (summary v2) ∧
    validation_results v = validation_results v2 ∪ validation_results v1.
Proof.
  do 3 eexists. split_and!; try apply validate_tokens_run; simpl.
  - destruct (validate_loop_lists (asl_dataset st) tokens1) as [-> _].
    destruct (validate_loop_lists (asl_dataset st) tokens2) as [-> _].
    destruct (validate_loop_lists (asl_dataset st) (tokens1 ++ tokens2))
      as [-> _].
    by rewrite filter_app, fmap_app.
  - destruct (validate_loop_lists (asl_dataset st) tokens1) as [_ ->].
    destruct (validate_loop_lists (asl_dataset st) tokens2) as [_ ->].
    destruct (validate_loop_lists (asl_dataset st) (tokens1 ++ tokens2))
      as [_ ->].
    by rewrite filter_app.
  - destruct (validate_loop_lists (asl_dataset st) tokens1) as [-> _].
    destruct (validate_loop_lists (asl_dataset st) tokens2) as [-> _].
    destruct (validate_loop_lists (asl_dataset st) (tokens1 ++ tokens2))
      as [-> _].
    unfold len. rewrite filter_app, fmap_app, length_app. lia.
  - destruct (validate_loop_lists (asl_dataset st) tokens1) as [_ ->].
    destruct (validate_loop_lists (asl_dataset st) tokens2) as [_ ->].
    destruct (validate_loop_lists (asl_dataset st) (tokens1 ++ tokens2))
      as [_ ->].
    unfold len. rewrite filter_app, length_app. lia.
  - apply map_eq. intros t.
    rewrite lookup_union, !validate_loop_results.
    rewrite (bool_decide_ext (t ∈ tokens1 ++ tokens2)
               (t ∈ tokens1 ∨ t ∈ tokens2)) by apply elem_of_app.
    destruct (decide (t ∈ tokens1)) as [H1|H1],
             (decide (t ∈ tokens2)) as [H2|H2];
      rewrite ?(bool_decide_eq_true_2 _ H1), ?(bool_decide_eq_true_2 _ H2),
        ?(bool_decide_eq_false_2 _ H1), ?(bool_decide_eq_false_2 _ H2);
      (rewrite bool_decide_eq_true_2 by tauto) ||
      (rewrite bool_decide_eq_false_2 by tauto); done.
Qed.
End validate_more.


(** ** The command line entry point *)

Section main_facts.
Implicit Types (tasks : list Main.TaskOutput) (out : list string).

Lemma print_steps_app (idx : nat) tasks out :
  Main.print_steps idx tasks out = out ++ Main.print_steps idx tasks [].
Proof.
  revert idx out. induction tasks as [|t tasks IH]; intros idx out; simpl.
  - by rewrite app_nil_r.
  - rewrite IH, (IH _ (Main.print _ _)). unfold Main.print.
    by rewrite <- !app_assoc.
Qed.

Lemma print_steps_cons (idx : nat) t tasks :
  Main.print_steps idx (t :: tasks) [] =
  Main.step_header idx t :: Main.step_output t ::
    Main.print_steps (S idx) tasks [].
Proof. simpl. by rewrite print_steps_app. Qed.

Lemma print_steps_length (idx : nat) tasks :
  length (Main.print_steps idx tasks []) = (2 * length tasks)%nat.
Proof.
  revert idx. induction tasks as [|t tasks IH]; intros idx; [done|].
  rewrite print_steps_cons. simpl. rewrite IH. lia.
Qed.

(** The [i]-th task is printed under the number [idx + i]. *)
Lemma print_steps_lookup (idx i : nat) tasks t :
  tasks !! i = Some t →
  Main.print_steps idx tasks [] !! (2 * i)%nat =
    Some (Main.step_header (idx + i) t) ∧
  Main.print_steps idx tasks [] !! (2 * i + 1)%nat =
    Some (Main.step_output t).
Proof.
  revert idx i. induction tasks as [|t' tasks IH]; intros idx i Hi; [done|].
  rewrite print_steps_cons. destruct i as [|i]; simpl in Hi.
  - injection Hi as ->. by rewrite Nat.add_0_r.
  - destruct (IH (S idx) i Hi) as [Hh Ho].
    replace (2 * S i)%nat with (S (S (2 * i))) by lia.
    replace (idx + S i)%nat with (S idx + i)%nat by lia.
    simpl. split; [done|].
    by replace (i + (i + 0) + 1)%nat with (2 * i + 1)%nat by lia.
Qed.


(** X16: with a key, and a crew that returns, [main] returns after two
    calls of [print] and two more for each task of the result; the
    first text is the result after "Crew Result: ". *)
Theorem main_prints environ SginGPTCrew result :
  bool_getenv (environ !! "OPENAI_API_KEY") = true →
  SginGPTCrew Main.the_call = Main.Returns result →
  ∃ out, Main.main environ SginGPTCrew = (Return tt, out) ∧
         length out = (2 + 2 * length (Main.tasks_output result))%nat ∧
         out !! 0%nat = Some ("Crew Result: " +:+ Main.text result).
Proof.
  intros Hkey Hcrew. unfold Main.main. rewrite Hkey, Hcrew. simpl.
  eexists. split; [done|]. rewrite print_steps_app.
  rewrite length_app, print_steps_length. done.
Qed.

(** X17: the [i]-th task of the result, counting from 0, is printed as
    the texts number [2 + 2 i] and [3 + 2 i], the first under the number
    [i + 1], the second with its raw output. *)
Theorem main_prints_step environ SginGPTCrew result (i : nat) task_output :
  bool_getenv (environ !! "OPENAI_API_KEY") = true →
  SginGPTCrew Main.the_call = Main.Returns result →
  Main.tasks_output result !! i = Some task_output →
  let out := (Main.main environ SginGPTCrew).2 in
  out !! (2 + 2 * i)%nat = Some (Main.step_header (S i) task_output) ∧
  out !! (3 + 2 * i)%nat = Some (Main.step_output task_output).
Proof.
  intros Hkey Hcrew Hi. unfold Main.main. rewrite Hkey, Hcrew. simpl.
  rewrite print_steps_app.
  destruct (print_steps_lookup 1 i _ _ Hi) as [Hh Ho].
  split.
  - rewrite lookup_app_r by (simpl; lia).
    change (S i) with (1 + i)%nat. rewrite <- Hh. f_equal. simpl. lia.
  - rewrite lookup_app_r by (simpl; lia). rewrite <- Ho. f_equal. simpl. lia.
Qed.
End main_facts.

(** ** The further properties at work *)

Lemma process_tokens_returns_witness :
  @process_tokens ascii_runtime (echo_crew "What is your name?")
    {| words := ["YOU"; "NAME"; "WHAT"] |} server_with_key =
  (Return {| result := "What is your name?" |},
   record_kickoff
     (inputs_of {| words := ["YOU"; "NAME"; "WHAT"] |} server_with_key)
     server_with_key).
Proof.
  refine (@process_tokens_returns ascii_runtime (echo_crew "What is your name?")
            {| words := ["YOU"; "NAME"; "WHAT"] |} server_with_key
            "What is your name?" eq_refl _ eq_refl).
  discriminate.
Defined.

Lemma process_tokens_rejected_no_kickoff_witness :
  (@process_tokens ascii_runtime (echo_crew "What is your name?")
     {| words := [] |} server_with_key).2 = server_with_key.
Proof.
  exact (@process_tokens_rejected_no_kickoff ascii_runtime
           (echo_crew "What is your name?") {| words := [] |} server_with_key
           (or_intror eq_refl)).
Defined.

Lemma process_tokens_http_error_witness :
  500 = 500 ∧
  ∃ text, "Error processing tokens: 404: no such model" =
          "Error processing tokens: " +:+ text.
Proof.
  exact (@process_tokens_http_error ascii_runtime
           (failing_crew (HTTPException 404 "no such model"))
           {| words := ["YOU"] |} server_with_key
           500 "Error processing tokens: 404: no such model" eq_refl).
Defined.

Lemma process_tokens_base_exception_witness :
  let request := {| words := ["YOU"] |} in
  let e := PyBaseExc "KeyboardInterrupt" "" in
  @process_tokens ascii_runtime (failing_crew e) request server_with_key =
    (Raise e, record_kickoff (inputs_of request server_with_key) server_with_key).
Proof.
  intros request e.
  refine (@process_tokens_base_exception ascii_runtime (failing_crew e) request
            server_with_key e eq_refl _ eq_refl eq_refl).
  discriminate.
Defined.

Lemma load_asl_dataset_distinct_witness :
  NoDup [("hello", "Hello"); ("you", "you")].*1 ∧
  @load_asl_dataset ascii_runtime
    (Document ((λ kv, (kv.1, JStr kv.2)) <$> [("hello", "Hello"); ("you", "you")])) =
  Return (string_upper <$> [("hello", "Hello"); ("you", "you")].*2).
Proof.
  assert (Hnd : NoDup [("hello", "Hello"); ("you", "you")].*1)
    by (apply (bool_decide_unpack _); vm_compute; exact I).
  split; [exact Hnd|].
  exact (@load_asl_dataset_distinct ascii_runtime
           [("hello", "Hello"); ("you", "you")] Hnd).
Defined.

Lemma load_asl_dataset_length_witness :
  length sample_dataset = size (list_to_set sample_members.*1 : gset string).
Proof.
  exact (@load_asl_dataset_length ascii_runtime sample_members sample_dataset
           eq_refl).
Defined.

Lemma validate_tokens_coherent_witness :
  "Foo" ∈ ["you"; "Foo"] ∧
  ∃ v r, @validate_tokens ascii_runtime ["you"; "Foo"] server_with_key =
           (Return v, server_with_key) ∧
         validation_results v !! "Foo" = Some r ∧
         (valid r = true ↔ "FOO" ∈ valid_tokens (summary v)) ∧
         (valid r = false ↔ "Foo" ∈ invalid_tokens (summary v)).
Proof.
  assert (Hin : "Foo" ∈ ["you"; "Foo"]) by (right; left).
  split; [exact Hin|].
  exact (@validate_tokens_coherent ascii_runtime ["you"; "Foo"] server_with_key
           "Foo" Hin).
Defined.

Lemma vocabulary_string_valid_witness :
  ∃ v, @validate_tokens ascii_runtime ["Hello"; "there"] server_with_key =
         (Return v, server_with_key) ∧
       validation_results v !! "Hello" =
         Some {| valid := true; normalized := Some "HELLO" |} ∧
       "HELLO" ∈ valid_tokens (summary v).
Proof.
  assert (Hs : JStr "Hello" ∈ PyDict.values (PyDict.of_members sample_members))
    by (change (JStr "Hello" ∈ [JStr "Hello"; JStr "you"; JStr "Name"]); left).
  assert (Hin : "Hello" ∈ ["Hello"; "there"]) by left.
  exact (@vocabulary_string_valid ascii_runtime sample_members server_with_key
           "Hello" ["Hello"; "there"] eq_refl Hs Hin).
Defined.


Lemma main_prints_witness :
  ∃ out, Main.main {[ "OPENAI_API_KEY" := "sk-test" ]}
           (λ _, Main.Returns Main.sample_result) = (Return tt, out) ∧
         length out = 8%nat ∧
         out !! 0%nat = Some "Crew Result: What is your name?".
Proof.
  exact (main_prints {[ "OPENAI_API_KEY" := "sk-test" ]}
           (λ _, Main.Returns Main.sample_result) Main.sample_result
           eq_refl eq_refl).
Defined.

Lemma main_prints_step_witness :
  let out := (Main.main {[ "OPENAI_API_KEY" := "sk-test" ]}
                (λ _, Main.Returns Main.sample_result)).2 in
  out !! 4%nat = Some "[2] Step 2 — Agent: Writer" ∧
  out !! 5%nat = Some ("Output: you name what" +:+ Main.nl).
Proof.
  exact (main_prints_step {[ "OPENAI_API_KEY" := "sk-test" ]}
           (λ _, Main.Returns Main.sample_result) Main.sample_result 1
           {| Main.description := Some ""; Main.agent := Some "Writer";
              Main.raw := "you name what" |}
           eq_refl eq_refl eq_refl).
Defined.
